(** * PaperlessClient: a shallow embedding of the Paperless-ngx TypeScript client

    The class [PaperlessClient] keeps a base URL and a token and offers one
    asynchronous method per CRUD operation of ten resource kinds.  Every
    method goes through the private method [request], which calls the
    platform's [fetch], tests [response.ok], and hands back
    [response.json()].

    The embedding keeps that shape.  An asynchronous method is a computation
    in the monad [Async]: it reads the platform (the server behind [fetch]
    and the JSON routines), threads a world made of the instance [this] and
    the log of platform calls, and settles as fulfilled or rejected.

    Numbers are the safe integers, the integers that a JavaScript number
    holds exactly and prints digit for digit; a record may hold BigInt
    values, which [JSON.stringify] refuses.

    The class is embedded from the full client (ten resource kinds).  The
    file src/index.ts holds the same [request] and the first two document
    methods, word for word. *)

From Stdlib Require Import String Ascii ZArith List Bool Lia DecimalString.
From Stdlib Require Import DecimalPos DecimalZ Eqdep_dec.
Import ListNotations.
Set Warnings "-register-all".
Local Open Scope string_scope.
Local Open Scope Z_scope.

(** ** Safe integers *)

(** [Number.isSafeInteger]: magnitude at most 2^53 - 1. *)
Definition safe_integer (n : Z) : bool := Z.abs n <=? 9007199254740991.

(** The numbers of the model: identifiers, status codes, counts. *)
Record SafeInteger : Type := mkSafeInteger {
  int_value :> Z;
  int_safe : safe_integer int_value = true
}.

Definition SafeInteger_of_Z (z : Z) : option SafeInteger :=
  (if safe_integer z as b return safe_integer z = b -> option SafeInteger
   then fun H => Some (mkSafeInteger z H)
   else fun _ => None) eq_refl.

Declare Scope safe_scope.
Delimit Scope safe_scope with safe.
Bind Scope safe_scope with SafeInteger.
Number Notation SafeInteger SafeInteger_of_Z int_value : safe_scope.

(** ** JavaScript values *)

Module Js.

(** The values that travel through the client: the arguments typed [any] or
    [Partial<...>], and what [response.json()] resolves to.  Numbers are the
    safe integers; a BigInt is any integer. *)
Inductive JsValue : Type :=
| JUndefined
| JNull
| JBool (b : bool)
| JNumber (n : SafeInteger)
| JBigInt (n : Z)
| JString (s : string)
| JArray (items : list JsValue)
| JObject (fields : list (string * JsValue)).

(** A [Partial<T>] argument is an object: a list of properties, any of the
    declared ones possibly absent. *)
Definition JsObject : Type := list (string * JsValue).

(** ToBoolean, the test behind [body ? ... : ...]. *)
Definition truthy (v : JsValue) : bool :=
  match v with
  | JUndefined | JNull => false
  | JBool b => b
  | JNumber n => negb (n =? 0)
  | JBigInt n => negb (n =? 0)
  | JString s => negb (String.eqb s "")
  | JArray _ | JObject _ => true
  end.

(** Number-to-string conversion of a safe integer, as a template literal
    [`${id}`] performs it: the decimal digits of the integer, a leading
    minus sign when negative. *)
Definition number_toString (n : SafeInteger) : string :=
  NilZero.string_of_int (Z.to_int n).

(** What a rejected promise carries.  [Error] is the one the client itself
    throws; the others come from the platform: [JSON.stringify] throws a
    [TypeError] on a value it cannot serialise, [fetch] rejects with a
    [TypeError] when no response arrives, [response.json()] rejects with a
    [SyntaxError] when the body is not a JSON text. *)
Inductive JsError : Type :=
| Error (message : string)
| TypeError_stringify
| TypeError_fetch
| SyntaxError_json.

End Js.
Import Js.

(** ** HTTP messages *)

Record Request : Type := mkRequest {
  url : string;
  method : string;
  headers : list (string * string);
  body : option string
}.

(** A response as [fetch] resolves it: the status line and the body text. *)
Record Response : Type := mkResponse {
  status : SafeInteger;
  statusText : string;
  bodyText : string
}.

(** [response.ok]: the status is in the range 200-299. *)
Definition ok (r : Response) : bool :=
  (200 <=? status r) && (status r <=? 299).

(** ** The platform *)

(** What the code calls but does not define.  [server] is the far end of
    [fetch]: the response to a request, or [None] when the exchange breaks
    down.  [JSON_stringify] and [JSON_parse] are the platform's JSON
    routines: serialising yields [None] on a value it throws on (one that
    holds a BigInt), parsing yields [None] on a text that is not JSON. *)
Record Platform : Type := mkPlatform {
  server : Request -> option Response;
  JSON_stringify : JsValue -> option string;
  JSON_parse : string -> option JsValue
}.

(** ** The client instance and the world a call runs in *)

(** [private readonly baseUrl: string; private readonly token: string;] *)
Record PaperlessClient : Type := mkClient {
  baseUrl : string;
  token : string
}.

(** [constructor(baseUrl, token)] stores its two arguments. *)
Definition constructor (baseUrl0 token0 : string) : PaperlessClient :=
  {| baseUrl := baseUrl0; token := token0 |}.

(** Platform calls a computation makes, in order. *)
Inductive Event : Type :=
| EvFetch (req : Request)
| EvJson (resp : Response).

Record World : Type := mkWorld {
  this : PaperlessClient;
  log : list Event
}.

Definition start (c : PaperlessClient) : World :=
  {| this := c; log := [] |}.

(** ** The monad of asynchronous computations *)

Inductive Settled (A : Type) : Type :=
| Fulfilled (a : A)
| Rejected (e : JsError).
Arguments Fulfilled {A} a.
Arguments Rejected {A} e.

Definition Async (A : Type) : Type := Platform -> World -> Settled A * World.

Definition ret {A} (a : A) : Async A := fun _ w => (Fulfilled a, w).

Definition throw {A} (e : JsError) : Async A := fun _ w => (Rejected e, w).

(** [await]: a rejection of the awaited promise rejects the whole call. *)
Definition bind {A B} (m : Async A) (k : A -> Async B) : Async B :=
  fun P w =>
    match m P w with
    | (Fulfilled a, w') => k a P w'
    | (Rejected e, w') => (Rejected e, w')
    end.

Declare Scope async_scope.
Delimit Scope async_scope with async.
Notation "x <- m ;; k" := (bind m (fun x => k))
  (at level 61, m at next level, right associativity) : async_scope.
Notation "m ;; k" := (bind m (fun _ => k))
  (at level 61, right associativity) : async_scope.
Local Open Scope async_scope.

(** Reading a field of [this]. *)
Definition get_this : Async PaperlessClient :=
  fun _ w => (Fulfilled (this w), w).

(** [JSON.stringify(v)] *)
Definition stringify (v : JsValue) : Async string :=
  fun P w =>
    match JSON_stringify P v with
    | Some text => (Fulfilled text, w)
    | None => (Rejected TypeError_stringify, w)
    end.

(** The platform call [e] has now happened. *)
Definition log_event (e : Event) (w : World) : World :=
  {| this := this w; log := log w ++ [e] |}.

(** [fetch(url, {method, headers, body})] *)
Definition fetch (req : Request) : Async Response :=
  fun P w =>
    match server P req with
    | Some resp => (Fulfilled resp, log_event (EvFetch req) w)
    | None => (Rejected TypeError_fetch, log_event (EvFetch req) w)
    end.

(** [response.json()] *)
Definition response_json (resp : Response) : Async JsValue :=
  fun P w =>
    match JSON_parse P (bodyText resp) with
    | Some v => (Fulfilled v, log_event (EvJson resp) w)
    | None => (Rejected SyntaxError_json, log_event (EvJson resp) w)
    end.

(** ** The class *)

(** [private async request<T>(method, path, body?)].  The arguments of
    [fetch] are evaluated before [fetch] is called, so
    [body ? JSON.stringify(body) : undefined] has run, and may have thrown,
    by then. *)
Definition request (method0 path : string) (body0 : JsValue) : Async JsValue :=
  self <- get_this ;;
  payload <- (if truthy body0
              then text <- stringify body0 ;; ret (Some text)
              else ret None) ;;
  response <- fetch {| url := baseUrl self ++ path;
                       method := method0;
                       headers := [("Authorization", "Token " ++ token self);
                                   ("Content-Type", "application/json")];
                       body := payload |} ;;
  if negb (ok response)
  then throw (Error ("Request failed: " ++ number_toString (status response)
                       ++ " " ++ statusText response))
  else response_json response.

(** The public methods, in the order of the class body.  A method that ends
    in [return this.request(...)] settles as that request does; a delete
    method awaits the request and then returns nothing. *)

(** [Document] methods *)

Definition getDocuments : Async JsValue :=
  request "GET" "/api/documents/" JUndefined.

Definition getDocument (id : SafeInteger) : Async JsValue :=
  request "GET" ("/api/documents/" ++ number_toString id ++ "/") JUndefined.

Definition createDocument (document : JsObject) : Async JsValue :=
  request "POST" "/api/documents/" (JObject document).

Definition updateDocument (id : SafeInteger) (document : JsObject) : Async JsValue :=
  request "PATCH" ("/api/documents/" ++ number_toString id ++ "/") (JObject document).

Definition deleteDocument (id : SafeInteger) : Async JsValue :=
  request "DELETE" ("/api/documents/" ++ number_toString id ++ "/") JUndefined ;;
  ret JUndefined.

(** [Tag] methods *)

Definition getTags : Async JsValue :=
  request "GET" "/api/tags/" JUndefined.

Definition getTag (id : SafeInteger) : Async JsValue :=
  request "GET" ("/api/tags/" ++ number_toString id ++ "/") JUndefined.

Definition createTag (tag : JsObject) : Async JsValue :=
  request "POST" "/api/tags/" (JObject tag).

Definition updateTag (id : SafeInteger) (tag : JsObject) : Async JsValue :=
  request "PATCH" ("/api/tags/" ++ number_toString id ++ "/") (JObject tag).

Definition deleteTag (id : SafeInteger) : Async JsValue :=
  request "DELETE" ("/api/tags/" ++ number_toString id ++ "/") JUndefined ;;
  ret JUndefined.

(** [Correspondent] methods *)

Definition getCorrespondents : Async JsValue :=
  request "GET" "/api/correspondents/" JUndefined.

Definition getCorrespondent (id : SafeInteger) : Async JsValue :=
  request "GET" ("/api/correspondents/" ++ number_toString id ++ "/") JUndefined.

Definition createCorrespondent (correspondent : JsObject) : Async JsValue :=
  request "POST" "/api/correspondents/" (JObject correspondent).

Definition updateCorrespondent (id : SafeInteger) (correspondent : JsObject) : Async JsValue :=
  request "PATCH" ("/api/correspondents/" ++ number_toString id ++ "/") (JObject correspondent).

Definition deleteCorrespondent (id : SafeInteger) : Async JsValue :=
  request "DELETE" ("/api/correspondents/" ++ number_toString id ++ "/") JUndefined ;;
  ret JUndefined.

(** [DocumentType] methods *)

Definition getDocumentTypes : Async JsValue :=
  request "GET" "/api/document_types/" JUndefined.

Definition getDocumentType (id : SafeInteger) : Async JsValue :=
  request "GET" ("/api/document_types/" ++ number_toString id ++ "/") JUndefined.

Definition createDocumentType (documentType : JsObject) : Async JsValue :=
  request "POST" "/api/document_types/" (JObject documentType).

Definition updateDocumentType (id : SafeInteger) (documentType : JsObject) : Async JsValue :=
  request "PATCH" ("/api/document_types/" ++ number_toString id ++ "/") (JObject documentType).

Definition deleteDocumentType (id : SafeInteger) : Async JsValue :=
  request "DELETE" ("/api/document_types/" ++ number_toString id ++ "/") JUndefined ;;
  ret JUndefined.

(** [CustomField] methods *)

Definition getCustomFields : Async JsValue :=
  request "GET" "/api/custom_fields/" JUndefined.

Definition getCustomField (id : SafeInteger) : Async JsValue :=
  request "GET" ("/api/custom_fields/" ++ number_toString id ++ "/") JUndefined.

Definition createCustomField (customField : JsObject) : Async JsValue :=
  request "POST" "/api/custom_fields/" (JObject customField).

Definition updateCustomField (id : SafeInteger) (customField : JsObject) : Async JsValue :=
  request "PATCH" ("/api/custom_fields/" ++ number_toString id ++ "/") (JObject customField).

Definition deleteCustomField (id : SafeInteger) : Async JsValue :=
  request "DELETE" ("/api/custom_fields/" ++ number_toString id ++ "/") JUndefined ;;
  ret JUndefined.

(** [User] methods *)

Definition getUsers : Async JsValue :=
  request "GET" "/api/users/" JUndefined.

Definition getUser (id : SafeInteger) : Async JsValue :=
  request "GET" ("/api/users/" ++ number_toString id ++ "/") JUndefined.

Definition createUser (user : JsObject) : Async JsValue :=
  request "POST" "/api/users/" (JObject user).

Definition updateUser (id : SafeInteger) (user : JsObject) : Async JsValue :=
  request "PATCH" ("/api/users/" ++ number_toString id ++ "/") (JObject user).

Definition deleteUser (id : SafeInteger) : Async JsValue :=
  request "DELETE" ("/api/users/" ++ number_toString id ++ "/") JUndefined ;;
  ret JUndefined.

(** [Group] methods *)

Definition getGroups : Async JsValue :=
  request "GET" "/api/groups/" JUndefined.

Definition getGroup (id : SafeInteger) : Async JsValue :=
  request "GET" ("/api/groups/" ++ number_toString id ++ "/") JUndefined.

Definition createGroup (group : JsObject) : Async JsValue :=
  request "POST" "/api/groups/" (JObject group).

Definition updateGroup (id : SafeInteger) (group : JsObject) : Async JsValue :=
  request "PATCH" ("/api/groups/" ++ number_toString id ++ "/") (JObject group).

Definition deleteGroup (id : SafeInteger) : Async JsValue :=
  request "DELETE" ("/api/groups/" ++ number_toString id ++ "/") JUndefined ;;
  ret JUndefined.

(** [ShareLink] methods *)

Definition getShareLinks : Async JsValue :=
  request "GET" "/api/share_links/" JUndefined.

Definition getShareLink (id : SafeInteger) : Async JsValue :=
  request "GET" ("/api/share_links/" ++ number_toString id ++ "/") JUndefined.

Definition createShareLink (shareLink : JsObject) : Async JsValue :=
  request "POST" "/api/share_links/" (JObject shareLink).

Definition deleteShareLink (id : SafeInteger) : Async JsValue :=
  request "DELETE" ("/api/share_links/" ++ number_toString id ++ "/") JUndefined ;;
  ret JUndefined.

(** [StoragePath] methods *)

Definition getStoragePaths : Async JsValue :=
  request "GET" "/api/storage_paths/" JUndefined.

Definition getStoragePath (id : SafeInteger) : Async JsValue :=
  request "GET" ("/api/storage_paths/" ++ number_toString id ++ "/") JUndefined.

Definition createStoragePath (storagePath : JsObject) : Async JsValue :=
  request "POST" "/api/storage_paths/" (JObject storagePath).

Definition updateStoragePath (id : SafeInteger) (storagePath : JsObject) : Async JsValue :=
  request "PATCH" ("/api/storage_paths/" ++ number_toString id ++ "/") (JObject storagePath).

Definition deleteStoragePath (id : SafeInteger) : Async JsValue :=
  request "DELETE" ("/api/storage_paths/" ++ number_toString id ++ "/") JUndefined ;;
  ret JUndefined.

(** [Workflow] methods *)

Definition getWorkflows : Async JsValue :=
  request "GET" "/api/workflows/" JUndefined.

Definition getWorkflow (id : SafeInteger) : Async JsValue :=
  request "GET" ("/api/workflows/" ++ number_toString id ++ "/") JUndefined.

Definition createWorkflow (workflow : JsObject) : Async JsValue :=
  request "POST" "/api/workflows/" (JObject workflow).

Definition updateWorkflow (id : SafeInteger) (workflow : JsObject) : Async JsValue :=
  request "PATCH" ("/api/workflows/" ++ number_toString id ++ "/") (JObject workflow).

Definition deleteWorkflow (id : SafeInteger) : Async JsValue :=
  request "DELETE" ("/api/workflows/" ++ number_toString id ++ "/") JUndefined ;;
  ret JUndefined.


(** ** The public surface as data

    One constructor per public method of the class, with the method's
    arguments: quantifying over [Method] is quantifying over every call a
    user of the class can make. *)

Inductive Method : Type :=
| GetDocuments
| GetDocument (id : SafeInteger)
| CreateDocument (document : JsObject)
| UpdateDocument (id : SafeInteger) (document : JsObject)
| DeleteDocument (id : SafeInteger)
| GetTags
| GetTag (id : SafeInteger)
| CreateTag (tag : JsObject)
| UpdateTag (id : SafeInteger) (tag : JsObject)
| DeleteTag (id : SafeInteger)
| GetCorrespondents
| GetCorrespondent (id : SafeInteger)
| CreateCorrespondent (correspondent : JsObject)
| UpdateCorrespondent (id : SafeInteger) (correspondent : JsObject)
| DeleteCorrespondent (id : SafeInteger)
| GetDocumentTypes
| GetDocumentType (id : SafeInteger)
| CreateDocumentType (documentType : JsObject)
| UpdateDocumentType (id : SafeInteger) (documentType : JsObject)
| DeleteDocumentType (id : SafeInteger)
| GetCustomFields
| GetCustomField (id : SafeInteger)
| CreateCustomField (customField : JsObject)
| UpdateCustomField (id : SafeInteger) (customField : JsObject)
| DeleteCustomField (id : SafeInteger)
| GetUsers
| GetUser (id : SafeInteger)
| CreateUser (user : JsObject)
| UpdateUser (id : SafeInteger) (user : JsObject)
| DeleteUser (id : SafeInteger)
| GetGroups
| GetGroup (id : SafeInteger)
| CreateGroup (group : JsObject)
| UpdateGroup (id : SafeInteger) (group : JsObject)
| DeleteGroup (id : SafeInteger)
| GetShareLinks
| GetShareLink (id : SafeInteger)
| CreateShareLink (shareLink : JsObject)
| DeleteShareLink (id : SafeInteger)
| GetStoragePaths
| GetStoragePath (id : SafeInteger)
| CreateStoragePath (storagePath : JsObject)
| UpdateStoragePath (id : SafeInteger) (storagePath : JsObject)
| DeleteStoragePath (id : SafeInteger)
| GetWorkflows
| GetWorkflow (id : SafeInteger)
| CreateWorkflow (workflow : JsObject)
| UpdateWorkflow (id : SafeInteger) (workflow : JsObject)
| DeleteWorkflow (id : SafeInteger).

Definition call (m : Method) : Async JsValue :=
  match m with
  | GetDocuments => getDocuments
  | GetDocument id => getDocument id
  | CreateDocument r => createDocument r
  | UpdateDocument id r => updateDocument id r
  | DeleteDocument id => deleteDocument id
  | GetTags => getTags
  | GetTag id => getTag id
  | CreateTag r => createTag r
  | UpdateTag id r => updateTag id r
  | DeleteTag id => deleteTag id
  | GetCorrespondents => getCorrespondents
  | GetCorrespondent id => getCorrespondent id
  | CreateCorrespondent r => createCorrespondent r
  | UpdateCorrespondent id r => updateCorrespondent id r
  | DeleteCorrespondent id => deleteCorrespondent id
  | GetDocumentTypes => getDocumentTypes
  | GetDocumentType id => getDocumentType id
  | CreateDocumentType r => createDocumentType r
  | UpdateDocumentType id r => updateDocumentType id r
  | DeleteDocumentType id => deleteDocumentType id
  | GetCustomFields => getCustomFields
  | GetCustomField id => getCustomField id
  | CreateCustomField r => createCustomField r
  | UpdateCustomField id r => updateCustomField id r
  | DeleteCustomField id => deleteCustomField id
  | GetUsers => getUsers
  | GetUser id => getUser id
  | CreateUser r => createUser r
  | UpdateUser id r => updateUser id r
  | DeleteUser id => deleteUser id
  | GetGroups => getGroups
  | GetGroup id => getGroup id
  | CreateGroup r => createGroup r
  | UpdateGroup id r => updateGroup id r
  | DeleteGroup id => deleteGroup id
  | GetShareLinks => getShareLinks
  | GetShareLink id => getShareLink id
  | CreateShareLink r => createShareLink r
  | DeleteShareLink id => deleteShareLink id
  | GetStoragePaths => getStoragePaths
  | GetStoragePath id => getStoragePath id
  | CreateStoragePath r => createStoragePath r
  | UpdateStoragePath id r => updateStoragePath id r
  | DeleteStoragePath id => deleteStoragePath id
  | GetWorkflows => getWorkflows
  | GetWorkflow id => getWorkflow id
  | CreateWorkflow r => createWorkflow r
  | UpdateWorkflow id r => updateWorkflow id r
  | DeleteWorkflow id => deleteWorkflow id
  end.

(** Running one call of a fresh instance against a platform. *)
Definition run (P : Platform) (c : PaperlessClient) (m : Method)
  : Settled JsValue * World :=
  call m P (start c).

Definition outcome (P : Platform) (c : PaperlessClient) (m : Method)
  : Settled JsValue := fst (run P c m).

Definition events (P : Platform) (c : PaperlessClient) (m : Method)
  : list Event := log (snd (run P c m)).

(** The HTTP requests among a list of events, in order. *)
Fixpoint fetched (l : list Event) : list Request :=
  match l with
  | [] => []
  | EvFetch req :: l' => req :: fetched l'
  | EvJson _ :: l' => fetched l'
  end.

(** The responses whose body was parsed. *)
Fixpoint parsed (l : list Event) : list Response :=
  match l with
  | [] => []
  | EvFetch _ :: l' => parsed l'
  | EvJson resp :: l' => resp :: parsed l'
  end.

Definition requests (P : Platform) (c : PaperlessClient) (m : Method)
  : list Request := fetched (events P c m).

(** What the server answers to the call: its response to the request the
    call issues, when it issues exactly one and the exchange succeeds. *)
Definition answer (P : Platform) (c : PaperlessClient) (m : Method)
  : option Response :=
  match requests P c m with
  | [req] => server P req
  | _ => None
  end.

(** ** Resource kinds, operations and the path scheme *)

Inductive Kind : Type :=
| Document | Tag | Correspondent | DocumentType | CustomField
| User | Group | ShareLink | StoragePath | Workflow.

Inductive Operation : Type :=
| OpList | OpGet | OpCreate | OpUpdate | OpDelete.

Definition all_kinds : list Kind :=
  [Document; Tag; Correspondent; DocumentType; CustomField;
   User; Group; ShareLink; StoragePath; Workflow].

Definition all_operations : list Operation :=
  [OpList; OpGet; OpCreate; OpUpdate; OpDelete].

(** Which resource kind and which operation a method is named after. *)
Definition kind_of (m : Method) : Kind :=
  match m with
  | GetDocuments | GetDocument _ | CreateDocument _ | UpdateDocument _ _ | DeleteDocument _ => Document
  | GetTags | GetTag _ | CreateTag _ | UpdateTag _ _ | DeleteTag _ => Tag
  | GetCorrespondents | GetCorrespondent _ | CreateCorrespondent _ | UpdateCorrespondent _ _ | DeleteCorrespondent _ => Correspondent
  | GetDocumentTypes | GetDocumentType _ | CreateDocumentType _ | UpdateDocumentType _ _ | DeleteDocumentType _ => DocumentType
  | GetCustomFields | GetCustomField _ | CreateCustomField _ | UpdateCustomField _ _ | DeleteCustomField _ => CustomField
  | GetUsers | GetUser _ | CreateUser _ | UpdateUser _ _ | DeleteUser _ => User
  | GetGroups | GetGroup _ | CreateGroup _ | UpdateGroup _ _ | DeleteGroup _ => Group
  | GetShareLinks | GetShareLink _ | CreateShareLink _ | DeleteShareLink _ => ShareLink
  | GetStoragePaths | GetStoragePath _ | CreateStoragePath _ | UpdateStoragePath _ _ | DeleteStoragePath _ => StoragePath
  | GetWorkflows | GetWorkflow _ | CreateWorkflow _ | UpdateWorkflow _ _ | DeleteWorkflow _ => Workflow
  end.

Definition op_of (m : Method) : Operation :=
  match m with
  | GetDocuments | GetTags | GetCorrespondents | GetDocumentTypes
  | GetCustomFields | GetUsers | GetGroups | GetShareLinks
  | GetStoragePaths | GetWorkflows => OpList
  | GetDocument _ | GetTag _ | GetCorrespondent _ | GetDocumentType _
  | GetCustomField _ | GetUser _ | GetGroup _ | GetShareLink _
  | GetStoragePath _ | GetWorkflow _ => OpGet
  | CreateDocument _ | CreateTag _ | CreateCorrespondent _
  | CreateDocumentType _ | CreateCustomField _ | CreateUser _
  | CreateGroup _ | CreateShareLink _ | CreateStoragePath _
  | CreateWorkflow _ => OpCreate
  | UpdateDocument _ _ | UpdateTag _ _ | UpdateCorrespondent _ _
  | UpdateDocumentType _ _ | UpdateCustomField _ _ | UpdateUser _ _
  | UpdateGroup _ _ | UpdateStoragePath _ _ | UpdateWorkflow _ _ => OpUpdate
  | DeleteDocument _ | DeleteTag _ | DeleteCorrespondent _
  | DeleteDocumentType _ | DeleteCustomField _ | DeleteUser _
  | DeleteGroup _ | DeleteShareLink _ | DeleteStoragePath _
  | DeleteWorkflow _ => OpDelete
  end.

(** The identifier a method is called with ([0] when it takes none). *)
Definition id_of (m : Method) : SafeInteger :=
  match m with
  | GetDocument id | UpdateDocument id _ | DeleteDocument id => id
  | GetTag id | UpdateTag id _ | DeleteTag id => id
  | GetCorrespondent id | UpdateCorrespondent id _ | DeleteCorrespondent id => id
  | GetDocumentType id | UpdateDocumentType id _ | DeleteDocumentType id => id
  | GetCustomField id | UpdateCustomField id _ | DeleteCustomField id => id
  | GetUser id | UpdateUser id _ | DeleteUser id => id
  | GetGroup id | UpdateGroup id _ | DeleteGroup id => id
  | GetShareLink id | DeleteShareLink id => id
  | GetStoragePath id | UpdateStoragePath id _ | DeleteStoragePath id => id
  | GetWorkflow id | UpdateWorkflow id _ | DeleteWorkflow id => id
  | _ => 0%safe
  end.

(** The partial record a method is called with (the empty one when it
    takes none). *)
Definition record_of (m : Method) : JsObject :=
  match m with
  | CreateDocument r | UpdateDocument _ r => r
  | CreateTag r | UpdateTag _ r => r
  | CreateCorrespondent r | UpdateCorrespondent _ r => r
  | CreateDocumentType r | UpdateDocumentType _ r => r
  | CreateCustomField r | UpdateCustomField _ r => r
  | CreateUser r | UpdateUser _ r => r
  | CreateGroup r | UpdateGroup _ r => r
  | CreateShareLink r => r
  | CreateStoragePath r | UpdateStoragePath _ r => r
  | CreateWorkflow r | UpdateWorkflow _ r => r
  | _ => []
  end.

(** The path scheme of the API: one collection path per resource kind, and
    under it one item path per identifier. *)
Definition collection_path (k : Kind) : string :=
  match k with
  | Document => "/api/documents/"
  | Tag => "/api/tags/"
  | Correspondent => "/api/correspondents/"
  | DocumentType => "/api/document_types/"
  | CustomField => "/api/custom_fields/"
  | User => "/api/users/"
  | Group => "/api/groups/"
  | ShareLink => "/api/share_links/"
  | StoragePath => "/api/storage_paths/"
  | Workflow => "/api/workflows/"
  end.

Definition item_path (k : Kind) (id : SafeInteger) : string :=
  collection_path k ++ number_toString id ++ "/".

(** The HTTP method of each operation of the pattern. *)
Definition verb (op : Operation) : string :=
  match op with
  | OpList | OpGet => "GET"
  | OpCreate => "POST"
  | OpUpdate => "PATCH"
  | OpDelete => "DELETE"
  end.

(** Whether the operation addresses one item or the collection. *)
Definition on_item (op : Operation) : bool :=
  match op with
  | OpGet | OpUpdate | OpDelete => true
  | OpList | OpCreate => false
  end.

(** Whether the operation sends a partial record. *)
Definition sends_record (op : Operation) : bool :=
  match op with
  | OpCreate | OpUpdate => true
  | OpList | OpGet | OpDelete => false
  end.

Definition documented_path (k : Kind) (op : Operation) (id : SafeInteger)
  : string :=
  if on_item op then item_path k id else collection_path k.

(** The two headers of the request pattern. *)
Definition pattern_headers (c : PaperlessClient) : list (string * string) :=
  [("Authorization", "Token " ++ token c);
   ("Content-Type", "application/json")].

(** The body of operation [op] for the partial record [r], as the
    operation pattern describes it: none for an operation that sends no
    record, the JSON text of the record for one that does.  The outer
    [None] says that there is no such text: the record cannot be
    serialised. *)
Definition pattern_body (P : Platform) (op : Operation) (r : JsObject)
  : option (option string) :=
  if sends_record op
  then option_map Some (JSON_stringify P (JObject r))
  else Some None.

(** The request of operation [op] on kind [k] for identifier [id], with
    the body [payload], as the operation pattern describes it. *)
Definition pattern_request (c : PaperlessClient)
    (k : Kind) (op : Operation) (id : SafeInteger) (payload : option string)
  : Request :=
  {| url := baseUrl c ++ documented_path k op id;
     method := verb op;
     headers := pattern_headers c;
     body := payload |}.

(** The requests that go out for a request that may not exist. *)
Definition issue (r : option Request) : list Request :=
  match r with
  | Some req => [req]
  | None => []
  end.

(** Header lookup by name. *)
Fixpoint header (name : string) (hs : list (string * string)) : option string :=
  match hs with
  | [] => None
  | (n, v) :: hs' => if String.eqb n name then Some v else header name hs'
  end.

(** ** A concrete platform

    A platform to run the client on: a compact JSON printer that refuses
    a value holding a BigInt, a parser that knows the texts of a handful of
    values and rejects every other text (the empty text among them), and
    servers that answer every request with one fixed response. *)

Module Sample.

Definition quote (s : string) : string :=
  String "034"%char (s ++ String "034"%char "").

(** Whether a value can be serialised: no BigInt anywhere in it. *)
Fixpoint serialisable (v : JsValue) : bool :=
  match v with
  | JBigInt _ => false
  | JArray items => forallb serialisable items
  | JObject fields => forallb (fun kv => serialisable (snd kv)) fields
  | _ => true
  end.

(** Compact JSON text of a serialisable value whose strings need no
    escaping; a property whose value is [undefined] is left out, an
    [undefined] array item is printed as [null].  (The BigInt case is there
    for totality only: [to_json] never prints a value that holds one.) *)
Fixpoint stringify (v : JsValue) : string :=
  match v with
  | JUndefined | JNull | JBigInt _ => "null"
  | JBool true => "true"
  | JBool false => "false"
  | JNumber n => number_toString n
  | JString s => quote s
  | JArray items => "[" ++ String.concat "," (map stringify items) ++ "]"
  | JObject fields =>
      "{" ++ String.concat ","
               ((fix props (fs : list (string * JsValue)) : list string :=
                   match fs with
                   | [] => []
                   | (_, JUndefined) :: fs' => props fs'
                   | (k, x) :: fs' => (quote k ++ ":" ++ stringify x) :: props fs'
                   end) fields)
          ++ "}"
  end.

Definition to_json (v : JsValue) : option string :=
  if serialisable v then Some (stringify v) else None.

Definition invoice : JsValue :=
  JObject [("id", JNumber 5); ("title", JString "Invoice")].

Definition inbox : JsObject := [("name", JString "inbox")].

(** A [Partial<Workflow>] whose one action has, among its parameters (a
    [Record<string, any>]), a BigInt. *)
Definition metered : JsObject :=
  [("name", JString "metered");
   ("actions",
    JArray [JObject [("id", JNumber 1);
                     ("workflow", JNumber 1);
                     ("type", JString "webhook");
                     ("parameters", JObject [("limit", JBigInt 10)])]])].

Definition known_values : list JsValue :=
  [JNull; JBool true; JBool false; JArray []; JObject []; invoice;
   JObject (("id", JNumber 7) :: inbox); JArray [invoice]].

Definition parse (s : string) : option JsValue :=
  find (fun v => String.eqb (stringify v) s) known_values.

Definition answering (resp : Response) : Platform :=
  {| server := fun _ => Some resp;
     JSON_stringify := to_json;
     JSON_parse := parse |}.

(** A platform whose network is down. *)
Definition offline : Platform :=
  {| server := fun _ => None;
     JSON_stringify := to_json;
     JSON_parse := parse |}.

Definition ok_200 (text : string) : Response :=
  {| status := 200; statusText := "OK"; bodyText := text |}.

Definition created_201 (text : string) : Response :=
  {| status := 201; statusText := "Created"; bodyText := text |}.

(** A 204 response has no body. *)
Definition no_content_204 : Response :=
  {| status := 204; statusText := "No Content"; bodyText := "" |}.

Definition not_found_404 : Response :=
  {| status := 404; statusText := "Not Found"; bodyText := "{}" |}.

Definition client : PaperlessClient :=
  constructor "https://paperless.example" "s3cr3t".

End Sample.


(** ** A declared record type as a shape

    [interface Tag { id: number; name: string; slug: string; colour: string;
    match: string; matching_algorithm: string; }], read as a test on a
    value: an object with a property of the right type under each name. *)

Fixpoint property (name : string) (fields : list (string * JsValue))
  : JsValue :=
  match fields with
  | [] => JUndefined
  | (n, v) :: fields' =>
      if String.eqb n name then v else property name fields'
  end.

Definition is_number (v : JsValue) : bool :=
  match v with JNumber _ => true | _ => false end.

Definition is_string (v : JsValue) : bool :=
  match v with JString _ => true | _ => false end.

Definition has_shape_Tag (v : JsValue) : bool :=
  match v with
  | JObject fields =>
      is_number (property "id" fields)
      && is_string (property "name" fields)
      && is_string (property "slug" fields)
      && is_string (property "colour" fields)
      && is_string (property "match" fields)
      && is_string (property "matching_algorithm" fields)
  | _ => false
  end.

(** ** Vocabulary of the properties *)

(** The method of the class that carries out operation [op] on kind [k],
    applied to [id] and [r]; [None] where the class has no such method. *)
Definition method_for (k : Kind) (op : Operation) (id : SafeInteger)
    (r : JsObject) : option Method :=
  match k, op with
  | Document, OpList => Some GetDocuments
  | Document, OpGet => Some (GetDocument id)
  | Document, OpCreate => Some (CreateDocument r)
  | Document, OpUpdate => Some (UpdateDocument id r)
  | Document, OpDelete => Some (DeleteDocument id)
  | Tag, OpList => Some GetTags
  | Tag, OpGet => Some (GetTag id)
  | Tag, OpCreate => Some (CreateTag r)
  | Tag, OpUpdate => Some (UpdateTag id r)
  | Tag, OpDelete => Some (DeleteTag id)
  | Correspondent, OpList => Some GetCorrespondents
  | Correspondent, OpGet => Some (GetCorrespondent id)
  | Correspondent, OpCreate => Some (CreateCorrespondent r)
  | Correspondent, OpUpdate => Some (UpdateCorrespondent id r)
  | Correspondent, OpDelete => Some (DeleteCorrespondent id)
  | DocumentType, OpList => Some GetDocumentTypes
  | DocumentType, OpGet => Some (GetDocumentType id)
  | DocumentType, OpCreate => Some (CreateDocumentType r)
  | DocumentType, OpUpdate => Some (UpdateDocumentType id r)
  | DocumentType, OpDelete => Some (DeleteDocumentType id)
  | CustomField, OpList => Some GetCustomFields
  | CustomField, OpGet => Some (GetCustomField id)
  | CustomField, OpCreate => Some (CreateCustomField r)
  | CustomField, OpUpdate => Some (UpdateCustomField id r)
  | CustomField, OpDelete => Some (DeleteCustomField id)
  | User, OpList => Some GetUsers
  | User, OpGet => Some (GetUser id)
  | User, OpCreate => Some (CreateUser r)
  | User, OpUpdate => Some (UpdateUser id r)
  | User, OpDelete => Some (DeleteUser id)
  | Group, OpList => Some GetGroups
  | Group, OpGet => Some (GetGroup id)
  | Group, OpCreate => Some (CreateGroup r)
  | Group, OpUpdate => Some (UpdateGroup id r)
  | Group, OpDelete => Some (DeleteGroup id)
  | ShareLink, OpList => Some GetShareLinks
  | ShareLink, OpGet => Some (GetShareLink id)
  | ShareLink, OpCreate => Some (CreateShareLink r)
  | ShareLink, OpUpdate => None
  | ShareLink, OpDelete => Some (DeleteShareLink id)
  | StoragePath, OpList => Some GetStoragePaths
  | StoragePath, OpGet => Some (GetStoragePath id)
  | StoragePath, OpCreate => Some (CreateStoragePath r)
  | StoragePath, OpUpdate => Some (UpdateStoragePath id r)
  | StoragePath, OpDelete => Some (DeleteStoragePath id)
  | Workflow, OpList => Some GetWorkflows
  | Workflow, OpGet => Some (GetWorkflow id)
  | Workflow, OpCreate => Some (CreateWorkflow r)
  | Workflow, OpUpdate => Some (UpdateWorkflow id r)
  | Workflow, OpDelete => Some (DeleteWorkflow id)
  end.

(** The class exposes operation [op] of the pattern for kind [k]: whatever
    the identifier and the partial record, some public method issues, on
    every platform and for every client, the request of the pattern and
    only that request (and none when the record cannot be serialised). *)
Definition exposes (k : Kind) (op : Operation) : Prop :=
  forall id r, exists m, forall P c,
    requests P c m
    = issue (option_map (pattern_request c k op id) (pattern_body P op r)).

(** The request of the pattern for the kind, operation and arguments of a
    method, if its record can be serialised. *)
Definition sent (P : Platform) (c : PaperlessClient) (m : Method)
  : option Request :=
  option_map (pattern_request c (kind_of m) (op_of m) (id_of m))
             (pattern_body P (op_of m) (record_of m)).

(** Whether the record of a call, if it sends one, can be serialised. *)
Definition serialises (P : Platform) (m : Method) : bool :=
  match pattern_body P (op_of m) (record_of m) with
  | Some _ => true
  | None => false
  end.

(** What happens once a request is handed to [fetch]: the exchange with
    the server, the test of the status, the parse of the body; [keep] is
    what the method does with the parsed value. *)
Definition exchange (P : Platform) (w : World) (req : Request)
    (keep : JsValue -> JsValue) : Settled JsValue * World :=
  match server P req with
  | None => (Rejected TypeError_fetch, log_event (EvFetch req) w)
  | Some resp =>
      if ok resp
      then match JSON_parse P (bodyText resp) with
           | Some v =>
               (Fulfilled (keep v),
                log_event (EvJson resp) (log_event (EvFetch req) w))
           | None =>
               (Rejected SyntaxError_json,
                log_event (EvJson resp) (log_event (EvFetch req) w))
           end
      else (Rejected (Error ("Request failed: " ++ number_toString (status resp)
                               ++ " " ++ statusText resp)),
            log_event (EvFetch req) w)
  end.

(** The parse that follows the fetch of [req], if one does. *)
Definition parsed_tail (P : Platform) (req : Request) : list Event :=
  match server P req with
  | Some resp => if ok resp then [EvJson resp] else []
  | None => []
  end.

(** The integer a decimal numeral denotes. *)
Definition decimal_value (s : string) : option Z :=
  option_map Z.of_int (NilZero.int_of_string s).

(** The message of the error thrown on a failure status. *)
Definition failure_message (resp : Response) : string :=
  "Request failed: " ++ number_toString (status resp) ++ " " ++ statusText resp.

Definition is_delete (m : Method) : bool :=
  match op_of m with
  | OpDelete => true
  | _ => false
  end.

(** A sequence of calls on one instance, each against the platform as it is
    at that moment; the world after the last one. *)
Fixpoint session (w : World) (calls : list (Platform * Method)) : World :=
  match calls with
  | [] => w
  | (P, m) :: calls' => session (snd (call m P w)) calls'
  end.

(** A request with its Authorization header taken out. *)
Definition without_authorization (req : Request) : Request :=
  {| url := url req;
     method := method req;
     headers := filter (fun h => negb (String.eqb (fst h) "Authorization"))
                       (headers req);
     body := body req |}.

(** Whether a character occurs in a string. *)
Fixpoint occurs (ch : ascii) (s : string) : bool :=
  match s with
  | EmptyString => false
  | String a s' => Ascii.eqb a ch || occurs ch s'
  end.

(** What identifies a request to a server that routes on the request line:
    the HTTP method and the URL. *)
Definition request_line (req : Request) : string * string :=
  (method req, url req).

(** What a path adds to the collection path of its kind. *)
Definition path_tail (op : Operation) (id : SafeInteger) : string :=
  if on_item op then number_toString id ++ "/" else "".

(** * Properties *)

(** ** How a call unfolds *)

Create HintDb methods.
#[local] Hint Unfold
  getDocuments getDocument createDocument updateDocument deleteDocument
  getTags getTag createTag updateTag deleteTag getCorrespondents
  getCorrespondent createCorrespondent updateCorrespondent
  deleteCorrespondent getDocumentTypes getDocumentType createDocumentType
  updateDocumentType deleteDocumentType getCustomFields getCustomField
  createCustomField updateCustomField deleteCustomField getUsers getUser
  createUser updateUser deleteUser getGroups getGroup createGroup
  updateGroup deleteGroup getShareLinks getShareLink createShareLink
  deleteShareLink getStoragePaths getStoragePath createStoragePath
  updateStoragePath deleteStoragePath getWorkflows getWorkflow
  createWorkflow updateWorkflow deleteWorkflow : methods.

Lemma append_cancel_l (s a b : string) : s ++ a = s ++ b -> a = b.
Proof.
  induction s as [| ch s IH]; cbn; intros H.
  - exact H.
  - injection H as H. auto.
Qed.

(** [request] first serialises a truthy body, and is rejected there if the
    serialiser throws; otherwise it issues its one request and settles on
    the response. *)
Lemma request_run (P : Platform) (w : World) (method0 path : string)
    (body0 : JsValue) :
  request method0 path body0 P w =
  match (if truthy body0
         then option_map Some (JSON_stringify P body0)
         else Some None) with
  | None => (Rejected TypeError_stringify, w)
  | Some payload =>
      exchange P w {| url := baseUrl (this w) ++ path;
                      method := method0;
                      headers := pattern_headers (this w);
                      body := payload |} (fun v => v)
  end.
Proof.
  unfold request, bind, get_this, stringify, ret, fetch, exchange,
    pattern_headers.
  destruct (truthy body0); [destruct (JSON_stringify P body0) |]; cbn;
    try reflexivity;
    (destruct (server P _) as [resp |]; [| reflexivity]);
    (destruct (ok resp); cbn; [| reflexivity]);
    unfold response_json; destruct (JSON_parse P (bodyText resp)); reflexivity.
Qed.

(** Every public method is an instance of the pattern: it issues [sent], if
    there is one, and settles on the response; a delete method drops the
    parsed value. *)
Lemma call_run (P : Platform) (w : World) (m : Method) :
  call m P w =
  match sent P (this w) m with
  | None => (Rejected TypeError_stringify, w)
  | Some req =>
      exchange P w req (fun v => if is_delete m then JUndefined else v)
  end.
Proof.
  destruct m; cbn [call]; autounfold with methods;
    unfold bind; rewrite request_run;
    unfold sent, pattern_body, pattern_request, documented_path, item_path;
    cbn;
    try match goal with
        | |- context [JSON_stringify P ?v] => destruct (JSON_stringify P v)
        end; cbn; try reflexivity;
    unfold exchange;
    match goal with
    | |- context [server P ?r] => destruct (server P r) as [resp |]
    end; try reflexivity;
    destruct (ok resp); try reflexivity;
    destruct (JSON_parse P (bodyText resp)); reflexivity.
Qed.

(** The same, for one call of a fresh instance. *)
Lemma run_call (P : Platform) (c : PaperlessClient) (m : Method) :
  run P c m =
  match sent P c m with
  | None => (Rejected TypeError_stringify, start c)
  | Some req =>
      exchange P (start c) req (fun v => if is_delete m then JUndefined else v)
  end.
Proof.
  unfold run. rewrite call_run. reflexivity.
Qed.

Lemma exchange_fetched (P : Platform) (w : World) (req : Request)
    (keep : JsValue -> JsValue) :
  log (snd (exchange P w req keep)) = (log w ++ EvFetch req :: parsed_tail P req)%list
  /\ this (snd (exchange P w req keep)) = this w.
Proof.
  unfold exchange, parsed_tail.
  destruct (server P req) as [resp |]; [| split; reflexivity].
  destruct (ok resp); [| split; reflexivity].
  destruct (JSON_parse P (bodyText resp)); split; cbn;
    try reflexivity; now rewrite <- app_assoc.
Qed.

Lemma requests_call (P : Platform) (c : PaperlessClient) (m : Method) :
  requests P c m = issue (sent P c m).
Proof.
  unfold requests, events. rewrite run_call.
  destruct (sent P c m) as [req |]; [| reflexivity].
  rewrite (proj1 (exchange_fetched _ _ _ _)). unfold parsed_tail. cbn.
  destruct (server P req) as [resp |]; [| reflexivity].
  destruct (ok resp); reflexivity.
Qed.

(** The request of a call is the request of the pattern; it is there
    exactly when the record serialises. *)
Lemma sent_cases (P : Platform) (c : PaperlessClient) (m : Method) :
  exists payload,
    sent P c m
    = if serialises P m
      then Some (pattern_request c (kind_of m) (op_of m) (id_of m) payload)
      else None.
Proof.
  unfold sent, serialises.
  destruct (pattern_body P (op_of m) (record_of m)) as [payload |].
  - exists payload. reflexivity.
  - exists None. reflexivity.
Qed.

Lemma requests_cases (P : Platform) (c : PaperlessClient) (m : Method) :
  exists payload,
    requests P c m
    = if serialises P m
      then [pattern_request c (kind_of m) (op_of m) (id_of m) payload]
      else [].
Proof.
  destruct (sent_cases P c m) as [payload H]. exists payload.
  rewrite requests_call, H. destruct (serialises P m); reflexivity.
Qed.

Lemma answer_call (P : Platform) (c : PaperlessClient) (m : Method) :
  answer P c m = match sent P c m with
                 | Some req => server P req
                 | None => None
                 end.
Proof.
  unfold answer. rewrite requests_call.
  destruct (sent P c m); reflexivity.
Qed.

(** What a call does once the server's answer is known. *)
Lemma run_answered (P : Platform) (c : PaperlessClient) (m : Method)
    (resp : Response) :
  answer P c m = Some resp ->
  exists req,
    sent P c m = Some req
    /\ run P c m =
       if ok resp
       then match JSON_parse P (bodyText resp) with
            | Some v =>
                (Fulfilled (if is_delete m then JUndefined else v),
                 {| this := c; log := [EvFetch req; EvJson resp] |})
            | None =>
                (Rejected SyntaxError_json,
                 {| this := c; log := [EvFetch req; EvJson resp] |})
            end
       else (Rejected (Error (failure_message resp)),
             {| this := c; log := [EvFetch req] |}).
Proof.
  rewrite answer_call, run_call.
  destruct (sent P c m) as [req |]; [| discriminate].
  intros H. exists req. split; [reflexivity |].
  unfold exchange. rewrite H. reflexivity.
Qed.

(** ** Failure and success of a call *)

(** C2.  Whatever the operation, when the server's response has a status
    outside the success range the call is rejected with the error whose
    message is "Request failed: ", the status code in decimal, a space and
    the status text of that response; the only platform call made is the
    fetch, so the body of the response is not parsed. *)
Theorem failure_status_rejects (P : Platform) (c : PaperlessClient)
    (m : Method) (resp : Response) :
  answer P c m = Some resp ->
  ok resp = false ->
  outcome P c m =
    Rejected (Error ("Request failed: " ++ number_toString (status resp)
                       ++ " " ++ statusText resp))
  /\ parsed (events P c m) = [].
Proof.
  intros Hans Hok. unfold outcome, events.
  destruct (run_answered _ _ _ _ Hans) as [req [_ Hrun]].
  rewrite Hrun, Hok. split; reflexivity.
Qed.

Lemma failure_status_rejects_witness :
  answer (Sample.answering Sample.not_found_404) Sample.client (GetDocument 5)
    = Some Sample.not_found_404
  /\ ok Sample.not_found_404 = false
  /\ outcome (Sample.answering Sample.not_found_404) Sample.client
       (GetDocument 5)
     = Rejected (Error "Request failed: 404 Not Found")
  /\ parsed (events (Sample.answering Sample.not_found_404) Sample.client
               (GetDocument 5)) = [].
Proof.
  split; [reflexivity |]. split; [reflexivity |].
  apply (failure_status_rejects (Sample.answering Sample.not_found_404)
           Sample.client (GetDocument 5) Sample.not_found_404);
    reflexivity.
Defined.

(** C3, as stated, fails on a delete call: the tag endpoint answers
    [deleteTag(3)] with status 200 and the body [{}]; the body parses to
    the empty object, and the call resolves to [undefined], not to that
    object. *)
Lemma delete_drops_parsed_body :
  let P := Sample.answering (Sample.ok_200 "{}") in
  answer P Sample.client (DeleteTag 3) = Some (Sample.ok_200 "{}")
  /\ ok (Sample.ok_200 "{}") = true
  /\ JSON_parse P (bodyText (Sample.ok_200 "{}")) = Some (JObject [])
  /\ outcome P Sample.client (DeleteTag 3) = Fulfilled JUndefined
  /\ outcome P Sample.client (DeleteTag 3) <> Fulfilled (JObject []).
Proof.
  cbv zeta. repeat split; try reflexivity.
  vm_compute. discriminate.
Qed.

(** C3, amended.  On a response with a success status, a list, get-by-id,
    create or update call parses the whole body as JSON and settles as the
    parser does: it resolves to the parsed value as it is, of whatever
    shape, and is rejected when the body is not a JSON text.  A delete call
    never resolves to the parsed body: when it resolves, it resolves to
    [undefined]. *)
Theorem success_returns_parsed_body (P : Platform) (c : PaperlessClient)
    (m : Method) (resp : Response) :
  answer P c m = Some resp ->
  ok resp = true ->
  if is_delete m
  then match outcome P c m with
       | Fulfilled x => x = JUndefined
       | Rejected _ => True
       end
  else parsed (events P c m) = [resp]
       /\ outcome P c m = match JSON_parse P (bodyText resp) with
                          | Some v => Fulfilled v
                          | None => Rejected SyntaxError_json
                          end.
Proof.
  intros Hans Hok. unfold outcome, events.
  destruct (run_answered _ _ _ _ Hans) as [req [_ Hrun]].
  rewrite Hrun, Hok.
  destruct (is_delete m);
    destruct (JSON_parse P (bodyText resp)); cbn; auto.
Qed.

Lemma success_returns_parsed_body_witness :
  let resp := Sample.ok_200 (Sample.stringify Sample.invoice) in
  let P := Sample.answering resp in
  answer P Sample.client (GetDocument 5) = Some resp
  /\ ok resp = true
  /\ parsed (events P Sample.client (GetDocument 5)) = [resp]
  /\ outcome P Sample.client (GetDocument 5) = Fulfilled Sample.invoice.
Proof.
  cbv zeta. split; [reflexivity |]. split; [reflexivity |].
  exact (success_returns_parsed_body
           (Sample.answering (Sample.ok_200 (Sample.stringify Sample.invoice)))
           Sample.client (GetDocument 5)
           (Sample.ok_200 (Sample.stringify Sample.invoice))
           eq_refl eq_refl).
Defined.

(** ** The request a call issues *)

(** C4.  Whatever the client's token and whatever the operation, the
    request the call issues has as Authorization header the text "Token "
    followed by the token as configured.  (The call issues one request;
    only a create or update whose record cannot be serialised issues
    none.) *)
Theorem authorization_is_token (P : Platform) (c : PaperlessClient)
    (m : Method) :
  exists req,
    header "Authorization" (headers req) = Some ("Token " ++ token c)
    /\ requests P c m = if serialises P m then [req] else [].
Proof.
  destruct (requests_cases P c m) as [payload H].
  exists (pattern_request c (kind_of m) (op_of m) (id_of m) payload).
  split; [reflexivity | exact H].
Qed.

(** C7.  Every call, reads and deletes included, puts exactly two headers on
    the request it issues: Authorization, carrying the token, and
    Content-Type, announcing JSON.  (The call issues one request; only a
    create or update whose record cannot be serialised issues none.) *)
Theorem exactly_two_headers (P : Platform) (c : PaperlessClient)
    (m : Method) :
  exists req,
    headers req = [("Authorization", "Token " ++ token c);
                   ("Content-Type", "application/json")]
    /\ requests P c m = if serialises P m then [req] else [].
Proof.
  destruct (requests_cases P c m) as [payload H].
  exists (pattern_request c (kind_of m) (op_of m) (id_of m) payload).
  split; [reflexivity | exact H].
Qed.

(** ** Decimal numerals *)

Lemma to_int_not_nil (z : Z) :
  Z.to_int z <> Decimal.Pos Decimal.Nil /\ Z.to_int z <> Decimal.Neg Decimal.Nil.
Proof.
  destruct z as [| p | p]; cbn; split; intros [= H];
    try discriminate H; exact (Unsigned.to_uint_nonnil p H).
Qed.

(** The numeral of a number reads back as that number. *)
Lemma number_toString_value (n : SafeInteger) :
  decimal_value (number_toString n) = Some (int_value n).
Proof.
  unfold decimal_value, number_toString.
  destruct (to_int_not_nil n) as [Hp Hn].
  rewrite NilZero.isi by assumption. cbn. now rewrite DecimalZ.of_to.
Qed.

Lemma safe_integer_eq (a b : SafeInteger) : int_value a = int_value b -> a = b.
Proof.
  destruct a as [x Hx], b as [y Hy]. cbn. intros ->. f_equal.
  apply UIP_dec. apply bool_dec.
Qed.

Lemma number_toString_inj (n n' : SafeInteger) :
  number_toString n = number_toString n' -> n = n'.
Proof.
  intros H. apply safe_integer_eq.
  pose proof (number_toString_value n) as Hn.
  rewrite H, number_toString_value in Hn. congruence.
Qed.

(** C5, as stated, fails on a create call whose record cannot be
    serialised: [createWorkflow] with an action whose parameters hold a
    BigInt is rejected by [JSON.stringify] before [fetch] is reached, and
    issues no request at all. *)
Lemma unserialisable_record_issues_nothing :
  let P := Sample.answering (Sample.created_201 "{}") in
  JSON_stringify P (JObject Sample.metered) = None
  /\ requests P Sample.client (CreateWorkflow Sample.metered) = []
  /\ length (requests P Sample.client (CreateWorkflow Sample.metered)) <> 1%nat
  /\ outcome P Sample.client (CreateWorkflow Sample.metered)
     = Rejected TypeError_stringify.
Proof.
  cbv zeta. repeat split; try reflexivity. vm_compute. discriminate.
Qed.

(** C5, amended.  A call issues one HTTP request, whatever the server
    answers, with one exception: a create or update whose record
    [JSON.stringify] cannot serialise is rejected with the serialiser's
    error and issues none.  So a list, get-by-id or delete call always
    issues exactly one.  The request carries the HTTP method of the
    operation and goes to the base URL followed by the collection or item
    path of the resource kind, the item path ending in the decimal numeral
    of the identifier.  A list call makes no second request for further
    pages: on a success response it settles on the parse of that one
    body. *)
Theorem one_request_per_call (P : Platform) (c : PaperlessClient)
    (m : Method) :
  (exists req,
     method req = verb (op_of m)
     /\ url req = baseUrl c
                    ++ documented_path (kind_of m) (op_of m) (id_of m)
     /\ requests P c m = if serialises P m then [req] else [])
  /\ (sends_record (op_of m) = false -> length (requests P c m) = 1%nat)
  /\ (serialises P m = false ->
      outcome P c m = Rejected TypeError_stringify /\ events P c m = [])
  /\ (on_item (op_of m) = true ->
      exists numeral,
        documented_path (kind_of m) (op_of m) (id_of m)
        = collection_path (kind_of m) ++ numeral ++ "/"
        /\ decimal_value numeral = Some (int_value (id_of m)))
  /\ (op_of m = OpList ->
      forall resp,
        answer P c m = Some resp ->
        ok resp = true ->
        length (requests P c m) = 1%nat
        /\ outcome P c m = match JSON_parse P (bodyText resp) with
                           | Some v => Fulfilled v
                           | None => Rejected SyntaxError_json
                           end).
Proof.
  split; [| split; [| split; [| split]]].
  - destruct (requests_cases P c m) as [payload H].
    exists (pattern_request c (kind_of m) (op_of m) (id_of m) payload).
    split; [reflexivity |]. split; [reflexivity | exact H].
  - intros Hrec. rewrite requests_call. unfold sent, pattern_body.
    rewrite Hrec. reflexivity.
  - intros Hser. unfold outcome, events. rewrite run_call.
    unfold serialises in Hser. unfold sent.
    destruct (pattern_body P (op_of m) (record_of m)); [discriminate |].
    split; reflexivity.
  - intros Hitem. exists (number_toString (id_of m)).
    unfold documented_path. rewrite Hitem.
    split; [reflexivity | apply number_toString_value].
  - intros Hop resp Hans Hok.
    destruct (run_answered _ _ _ _ Hans) as [req [Hsent Hrun]]. split.
    + rewrite requests_call, Hsent. reflexivity.
    + unfold outcome. rewrite Hrun, Hok.
      assert (Hdel : is_delete m = false) by (unfold is_delete; now rewrite Hop).
      rewrite Hdel. destruct (JSON_parse P (bodyText resp)); reflexivity.
Qed.

Lemma one_request_per_call_witness :
  let resp := Sample.ok_200 "[]" in
  let P := Sample.answering resp in
  requests P Sample.client GetTags
    = [ {| url := "https://paperless.example/api/tags/";
           method := "GET";
           headers := [("Authorization", "Token s3cr3t");
                       ("Content-Type", "application/json")];
           body := None |} ]
  /\ outcome P Sample.client GetTags = Fulfilled (JArray []).
Proof.
  cbv zeta.
  pose proof (one_request_per_call (Sample.answering (Sample.ok_200 "[]"))
                Sample.client GetTags) as [_ [_ [_ [_ Hlist]]]].
  split; [reflexivity |].
  exact (proj2 (Hlist eq_refl (Sample.ok_200 "[]") eq_refl eq_refl)).
Defined.

(** C9.  A list, get-by-id or delete call issues its request without a body,
    and the request still carries the JSON Content-Type header. *)
Theorem reads_and_deletes_have_no_body (P : Platform) (c : PaperlessClient)
    (m : Method) :
  op_of m = OpList \/ op_of m = OpGet \/ op_of m = OpDelete ->
  exists req,
    requests P c m = [req]
    /\ body req = None
    /\ header "Content-Type" (headers req) = Some "application/json".
Proof.
  intros Hop.
  exists (pattern_request c (kind_of m) (op_of m) (id_of m) None).
  split; [| split; reflexivity].
  rewrite requests_call. unfold sent, pattern_body.
  destruct Hop as [H | [H | H]]; rewrite H; reflexivity.
Qed.

Lemma reads_and_deletes_have_no_body_witness :
  (op_of (DeleteTag 3) = OpList \/ op_of (DeleteTag 3) = OpGet
   \/ op_of (DeleteTag 3) = OpDelete)
  /\ exists req,
       requests Sample.offline Sample.client (DeleteTag 3) = [req]
       /\ body req = None
       /\ header "Content-Type" (headers req) = Some "application/json".
Proof.
  split.
  - right. right. reflexivity.
  - apply (reads_and_deletes_have_no_body Sample.offline Sample.client
             (DeleteTag 3)).
    right. right. reflexivity.
Defined.

(** C10.  The token reaches the Authorization header and nothing else: two
    clients with the same base URL and different tokens issue, for the same
    call, requests with the same URL, the same HTTP method and the same
    body, and the same headers once Authorization is set aside. *)
Theorem token_only_in_authorization (P : Platform) (b t1 t2 : string)
    (m : Method) :
  map (fun req => (url req, method req, body req))
      (requests P (constructor b t1) m)
  = map (fun req => (url req, method req, body req))
        (requests P (constructor b t2) m)
  /\ map without_authorization (requests P (constructor b t1) m)
     = map without_authorization (requests P (constructor b t2) m).
Proof.
  rewrite !requests_call. unfold sent.
  destruct (pattern_body P (op_of m) (record_of m)); split; reflexivity.
Qed.

(** ** The instance *)

Lemma call_keeps_this (P : Platform) (w : World) (m : Method) :
  this (snd (call m P w)) = this w.
Proof.
  rewrite call_run.
  destruct (sent P (this w) m) as [req |]; [| reflexivity].
  apply exchange_fetched.
Qed.

Lemma session_keeps_this (calls : list (Platform * Method)) :
  forall w, this (session w calls) = this w.
Proof.
  induction calls as [| [P m] calls IH]; intros w; cbn.
  - reflexivity.
  - rewrite IH. apply call_keeps_this.
Qed.

(** C8.  An instance is its base URL and its token and nothing more; the
    constructor stores the two as given; and after any sequence of calls,
    whatever the platform answered and however each call settled, the
    instance is the one constructed. *)
Theorem instance_is_fixed :
  (forall b t, baseUrl (constructor b t) = b /\ token (constructor b t) = t)
  /\ (forall c, c = constructor (baseUrl c) (token c))
  /\ (forall c calls, this (session (start c) calls) = c).
Proof.
  split; [| split].
  - intros b t. split; reflexivity.
  - intros [b t]. reflexivity.
  - intros c calls. apply (session_keeps_this calls (start c)).
Qed.

(** ** The operations each resource kind has *)

Lemma method_for_sent (k : Kind) (op : Operation) (id : SafeInteger)
    (r : JsObject) (m : Method) :
  method_for k op id r = Some m ->
  forall P c,
    sent P c m = option_map (pattern_request c k op id) (pattern_body P op r).
Proof.
  destruct k, op; cbn; intros H; inversion H; reflexivity.
Qed.

Lemma method_for_none (k : Kind) (op : Operation) (id : SafeInteger)
    (r : JsObject) :
  method_for k op id r = None -> k = ShareLink /\ op = OpUpdate.
Proof.
  destruct k, op; cbn; intros H; try discriminate; split; reflexivity.
Qed.

(** No public method issues a PATCH on a share link's item path. *)
Lemma no_share_link_update (P : Platform) (c : PaperlessClient)
    (id : SafeInteger) (payload : option string) (m : Method) :
  requests P c m <> [pattern_request c ShareLink OpUpdate id payload].
Proof.
  destruct (requests_cases P c m) as [payload' H]. rewrite H.
  destruct (serialises P m); [| discriminate]. intros E.
  assert (Hsent : pattern_request c (kind_of m) (op_of m) (id_of m) payload'
                  = pattern_request c ShareLink OpUpdate id payload)
    by congruence.
  pose proof (f_equal method Hsent) as Hverb.
  pose proof (f_equal url Hsent) as Hurl.
  unfold pattern_request in Hverb, Hurl. cbn [method url] in Hverb, Hurl.
  apply append_cancel_l in Hurl.
  destruct m; cbn in Hverb; try discriminate Hverb;
    cbn in Hurl; discriminate Hurl.
Qed.

(** C1, as stated, fails for share links: whatever the identifier and the
    record, no method of the class issues the PATCH of an update. *)
Lemma share_link_update_missing : ~ exposes ShareLink OpUpdate.
Proof.
  intros H.
  destruct (H 3%safe Sample.inbox) as [m Hm].
  exact (no_share_link_update _ _ _ _ _ (Hm Sample.offline Sample.client)).
Qed.

(** C1, amended.  The class exposes an operation of the pattern for a
    resource kind in every case but one: Update on ShareLink.  So nine kinds
    have list, get-by-id, create, update and delete, and ShareLink has list,
    get-by-id, create and delete. *)
Theorem exposes_all_but_share_link_update (k : Kind) (op : Operation) :
  exposes k op <-> ~ (k = ShareLink /\ op = OpUpdate).
Proof.
  split.
  - intros H [-> ->].
    destruct (H 0%safe []) as [m Hm].
    exact (no_share_link_update _ _ _ _ _ (Hm Sample.offline Sample.client)).
  - intros Hne id r.
    destruct (method_for k op id r) as [m |] eqn:E.
    + exists m. intros P c. rewrite requests_call. f_equal.
      exact (method_for_sent _ _ _ _ _ E P c).
    + elim Hne. exact (method_for_none _ _ _ _ E).
Qed.

(** ** The example of the tag deletion *)

Lemma deleteTag_3_request (P : Platform) (c : PaperlessClient) :
  requests P c (DeleteTag 3)
  = [ {| url := baseUrl c ++ "/api/tags/3/";
         method := "DELETE";
         headers := pattern_headers c;
         body := None |} ].
Proof.
  rewrite requests_call. reflexivity.
Qed.

Lemma deleteTag_3_not_found (P : Platform) (c : PaperlessClient)
    (resp : Response) :
  answer P c (DeleteTag 3) = Some resp ->
  int_value (status resp) = 404 ->
  outcome P c (DeleteTag 3)
  = Rejected (Error ("Request failed: 404 " ++ statusText resp)).
Proof.
  intros Hans Hst. unfold outcome.
  destruct (run_answered _ _ _ _ Hans) as [req [_ Hrun]]. rewrite Hrun.
  unfold ok, failure_message, number_toString. rewrite Hst. reflexivity.
Qed.

(** C6, on the code.  [deleteTag(3)] issues DELETE on /api/tags/3/.  When
    the response is a 204, which has no body, and the JSON parser rejects
    the empty text, the call does not resolve: [response.json()] is called
    on the empty body and its SyntaxError rejects the call. *)
Theorem deleteTag_3_no_content (P : Platform) (c : PaperlessClient)
    (resp : Response) :
  answer P c (DeleteTag 3) = Some resp ->
  int_value (status resp) = 204 ->
  bodyText resp = "" ->
  JSON_parse P "" = None ->
  requests P c (DeleteTag 3)
  = [ {| url := baseUrl c ++ "/api/tags/3/";
         method := "DELETE";
         headers := pattern_headers c;
         body := None |} ]
  /\ outcome P c (DeleteTag 3) = Rejected SyntaxError_json.
Proof.
  intros Hans Hst Hbody Hparse. split; [apply deleteTag_3_request |].
  unfold outcome.
  destruct (run_answered _ _ _ _ Hans) as [req [_ Hrun]]. rewrite Hrun.
  unfold ok. rewrite Hst, Hbody, Hparse. reflexivity.
Qed.

Lemma deleteTag_3_no_content_witness :
  let P := Sample.answering Sample.no_content_204 in
  answer P Sample.client (DeleteTag 3) = Some Sample.no_content_204
  /\ int_value (status Sample.no_content_204) = 204
  /\ bodyText Sample.no_content_204 = ""
  /\ JSON_parse P "" = None
  /\ requests P Sample.client (DeleteTag 3)
     = [ {| url := "https://paperless.example/api/tags/3/";
            method := "DELETE";
            headers := [("Authorization", "Token s3cr3t");
                        ("Content-Type", "application/json")];
            body := None |} ]
  /\ outcome P Sample.client (DeleteTag 3) = Rejected SyntaxError_json.
Proof.
  cbv zeta. repeat (split; [reflexivity |]).
  apply (deleteTag_3_no_content (Sample.answering Sample.no_content_204)
           Sample.client Sample.no_content_204); reflexivity.
Defined.

(** ** The examples, run *)

(** [getDocument(5)] issues GET on /api/documents/5/ and, on a 200 response
    whose body is the text of the invoice object, resolves to that object. *)
Example getDocument_5 :
  let resp := Sample.ok_200 (Sample.stringify Sample.invoice) in
  run (Sample.answering resp) Sample.client (GetDocument 5)
  = (Fulfilled Sample.invoice,
     {| this := Sample.client;
        log := [EvFetch {| url := "https://paperless.example/api/documents/5/";
                           method := "GET";
                           headers := [("Authorization", "Token s3cr3t");
                                       ("Content-Type", "application/json")];
                           body := None |};
                EvJson resp] |}).
Proof. reflexivity. Qed.

(** [createTag({name: "inbox"})] posts the record as JSON text. *)
Example createTag_inbox :
  requests Sample.offline Sample.client (CreateTag Sample.inbox)
  = [ {| url := "https://paperless.example/api/tags/";
         method := "POST";
         headers := [("Authorization", "Token s3cr3t");
                     ("Content-Type", "application/json")];
         body := Some (Sample.stringify (JObject Sample.inbox)) |} ]
  /\ outcome Sample.offline Sample.client (CreateTag Sample.inbox)
     = Rejected TypeError_fetch.
Proof. split; reflexivity. Qed.

(** [deleteTag(3)] on a 404. *)
Example deleteTag_3_on_404 :
  outcome (Sample.answering Sample.not_found_404) Sample.client (DeleteTag 3)
  = Rejected (Error "Request failed: 404 Not Found").
Proof. reflexivity. Qed.

(** A value that is no [Tag] comes back from [getTag] all the same. *)
Example getTag_unchecked_shape :
  has_shape_Tag (JArray []) = false
  /\ outcome (Sample.answering (Sample.ok_200 "[]")) Sample.client (GetTag 1)
     = Fulfilled (JArray []).
Proof. split; reflexivity. Qed.

(** * Further properties of the code *)

(** ** Strings and decimal numerals *)

Lemma uint_has_digits_only (ch : ascii) (d : Decimal.uint) :
  occurs ch "0123456789" = false ->
  occurs ch (NilEmpty.string_of_uint d) = false.
Proof.
  intros H. cbn [occurs] in H.
  repeat (apply orb_false_elim in H; destruct H as [? H]).
  induction d; cbn [occurs NilEmpty.string_of_uint]; try rewrite IHd;
    repeat match goal with
           | E : Ascii.eqb _ ch = false |- _ => rewrite E; clear E
           end; reflexivity.
Qed.

(** The numeral of a number holds digits and at most a minus sign. *)
Lemma number_toString_chars (ch : ascii) (n : SafeInteger) :
  occurs ch "-0123456789" = false ->
  occurs ch (number_toString n) = false.
Proof.
  intros H. cbn [occurs] in H. apply orb_false_elim in H. destruct H as [Hm H].
  assert (Hu : forall d, occurs ch (NilZero.string_of_uint d) = false).
  { intros d. pose proof (uint_has_digits_only ch d H) as Hd.
    destruct d; try exact Hd.
    cbn [NilZero.string_of_uint occurs].
    apply orb_false_elim in H. now rewrite (proj1 H). }
  unfold number_toString, NilZero.string_of_int.
  destruct (Z.to_int n) as [d | d]; [apply Hu |].
  cbn [occurs]. now rewrite Hm, Hu.
Qed.

Lemma number_toString_nonempty (n : SafeInteger) (s : string) :
  number_toString n ++ s <> "".
Proof.
  unfold number_toString, NilZero.string_of_int, NilZero.string_of_uint.
  destruct (Z.to_int n) as [d | d]; destruct d; cbn; discriminate.
Qed.

(** Two texts cut at the first occurrence of a character agree piecewise. *)
Lemma split_at_first (ch : ascii) (a b x y : string) :
  occurs ch a = false ->
  occurs ch b = false ->
  a ++ String ch x = b ++ String ch y ->
  a = b /\ x = y.
Proof.
  revert b. induction a as [| c a IH]; intros [| c' b]; cbn; intros Ha Hb H.
  - injection H as H. split; [reflexivity | exact H].
  - injection H as Hc _. subst c'. rewrite Ascii.eqb_refl in Hb. discriminate.
  - injection H as Hc _. subst c. rewrite Ascii.eqb_refl in Ha. discriminate.
  - injection H as Hc H. subst c'.
    apply orb_false_elim in Ha. apply orb_false_elim in Hb.
    destruct (IH b (proj2 Ha) (proj2 Hb) H) as [-> ->]. split; reflexivity.
Qed.

(** ** The body of a request *)

(** X1.  A body that is falsy (null, false, 0, the empty string) is treated
    like no body at all: [request] does the same with it as without one. *)
Theorem falsy_body_is_no_body (method0 path : string) (b : JsValue) :
  truthy b = false ->
  forall P w, request method0 path b P w = request method0 path JUndefined P w.
Proof.
  intros Hb P w. rewrite !request_run. cbn [truthy]. rewrite Hb. reflexivity.
Qed.

Lemma falsy_body_is_no_body_witness :
  truthy (JNumber 0) = false
  /\ request "POST" "/api/tags/" (JNumber 0)
       (Sample.answering (Sample.created_201 "{}")) (start Sample.client)
     = request "POST" "/api/tags/" JUndefined
         (Sample.answering (Sample.created_201 "{}")) (start Sample.client).
Proof.
  split; [reflexivity |].
  apply (falsy_body_is_no_body "POST" "/api/tags/" (JNumber 0)).
  reflexivity.
Defined.

(** X2.  A create or update call whose record [JSON.stringify] turns into a
    text issues one request, and its body is that text and nothing else:
    the record is not filtered and the identifier is not merged in, and an
    empty record is still sent. *)
Theorem writes_send_the_record (P : Platform) (c : PaperlessClient)
    (m : Method) (text : string) :
  op_of m = OpCreate \/ op_of m = OpUpdate ->
  JSON_stringify P (JObject (record_of m)) = Some text ->
  exists req,
    requests P c m = [req]
    /\ body req = Some text.
Proof.
  intros Hop Htext.
  exists (pattern_request c (kind_of m) (op_of m) (id_of m) (Some text)).
  split; [| reflexivity].
  rewrite requests_call. unfold sent, pattern_body.
  destruct Hop as [H | H]; rewrite H; cbn; rewrite Htext; reflexivity.
Qed.

Lemma writes_send_the_record_witness :
  (op_of (UpdateTag 7 []) = OpCreate \/ op_of (UpdateTag 7 []) = OpUpdate)
  /\ JSON_stringify Sample.offline (JObject (record_of (UpdateTag 7 [])))
     = Some "{}"
  /\ exists req,
       requests Sample.offline Sample.client (UpdateTag 7 []) = [req]
       /\ body req = Some "{}".
Proof.
  split; [right; reflexivity |]. split; [reflexivity |].
  apply (writes_send_the_record Sample.offline Sample.client (UpdateTag 7 [])).
  - right. reflexivity.
  - reflexivity.
Defined.

(** X13.  A create or update call whose record [JSON.stringify] throws on
    is rejected with the serialiser's error before anything is sent: no
    request, no parse. *)
Theorem unserialisable_record_rejects (P : Platform) (c : PaperlessClient)
    (m : Method) :
  op_of m = OpCreate \/ op_of m = OpUpdate ->
  JSON_stringify P (JObject (record_of m)) = None ->
  outcome P c m = Rejected TypeError_stringify
  /\ events P c m = [].
Proof.
  intros Hop Hnone. unfold outcome, events. rewrite run_call.
  unfold sent, pattern_body.
  destruct Hop as [H | H]; rewrite H; cbn; rewrite Hnone; split; reflexivity.
Qed.

Lemma unserialisable_record_rejects_witness :
  let P := Sample.answering (Sample.ok_200 "{}") in
  (op_of (UpdateWorkflow 4 Sample.metered) = OpCreate
   \/ op_of (UpdateWorkflow 4 Sample.metered) = OpUpdate)
  /\ JSON_stringify P (JObject (record_of (UpdateWorkflow 4 Sample.metered)))
     = None
  /\ outcome P Sample.client (UpdateWorkflow 4 Sample.metered)
     = Rejected TypeError_stringify
  /\ events P Sample.client (UpdateWorkflow 4 Sample.metered) = [].
Proof.
  cbv zeta. split; [right; reflexivity |]. split; [reflexivity |].
  apply (unserialisable_record_rejects
           (Sample.answering (Sample.ok_200 "{}")) Sample.client
           (UpdateWorkflow 4 Sample.metered)).
  - right. reflexivity.
  - reflexivity.
Defined.

(** ** The ways a call settles *)

(** X3.  When [fetch] itself fails on the request of a call, the call is
    rejected with the error of [fetch]; it has tried once, and has parsed
    nothing. *)
Theorem fetch_failure_rejects (P : Platform) (c : PaperlessClient)
    (m : Method) (req : Request) :
  requests P c m = [req] ->
  server P req = None ->
  outcome P c m = Rejected TypeError_fetch
  /\ events P c m = [EvFetch req].
Proof.
  rewrite requests_call. unfold outcome, events. rewrite run_call.
  destruct (sent P c m) as [req' |]; [| discriminate].
  intros [= ->] Hnone. unfold exchange. rewrite Hnone. split; reflexivity.
Qed.

Lemma fetch_failure_rejects_witness :
  let req := {| url := "https://paperless.example/api/tags/";
                method := "POST";
                headers := [("Authorization", "Token s3cr3t");
                            ("Content-Type", "application/json")];
                body := Some (Sample.stringify (JObject Sample.inbox)) |} in
  requests Sample.offline Sample.client (CreateTag Sample.inbox) = [req]
  /\ server Sample.offline req = None
  /\ outcome Sample.offline Sample.client (CreateTag Sample.inbox)
     = Rejected TypeError_fetch
  /\ events Sample.offline Sample.client (CreateTag Sample.inbox)
     = [EvFetch req].
Proof.
  cbv zeta. split; [reflexivity |]. split; [reflexivity |].
  apply (fetch_failure_rejects Sample.offline Sample.client
           (CreateTag Sample.inbox)); reflexivity.
Defined.

(** X4.  On a success response whose body is not a JSON text, every call,
    a delete call too, is rejected with the error of the parser, after its
    one fetch and its one parse. *)
Theorem unparsable_success_rejects (P : Platform) (c : PaperlessClient)
    (m : Method) (resp : Response) :
  answer P c m = Some resp ->
  ok resp = true ->
  JSON_parse P (bodyText resp) = None ->
  outcome P c m = Rejected SyntaxError_json
  /\ events P c m = [EvFetch (mkRequest
                                (baseUrl c ++ documented_path (kind_of m)
                                                (op_of m) (id_of m))
                                (verb (op_of m))
                                (pattern_headers c)
                                (if sends_record (op_of m)
                                 then JSON_stringify P
                                        (JObject (record_of m))
                                 else None));
                     EvJson resp].
Proof.
  intros Hans Hok Hparse. unfold outcome, events.
  destruct (run_answered _ _ _ _ Hans) as [req [Hsent Hrun]].
  rewrite Hrun, Hok, Hparse. split; [reflexivity |]. cbn [snd log].
  unfold sent, pattern_body in Hsent.
  destruct (sends_record (op_of m)).
  - destruct (JSON_stringify P (JObject (record_of m))); [| discriminate].
    injection Hsent as <-. reflexivity.
  - injection Hsent as <-. reflexivity.
Qed.

Lemma unparsable_success_rejects_witness :
  let P := Sample.answering Sample.no_content_204 in
  answer P Sample.client (DeleteWorkflow 12) = Some Sample.no_content_204
  /\ ok Sample.no_content_204 = true
  /\ JSON_parse P (bodyText Sample.no_content_204) = None
  /\ outcome P Sample.client (DeleteWorkflow 12) = Rejected SyntaxError_json.
Proof.
  cbv zeta. repeat (split; [reflexivity |]).
  exact (proj1 (unparsable_success_rejects
                  (Sample.answering Sample.no_content_204) Sample.client
                  (DeleteWorkflow 12) Sample.no_content_204
                  eq_refl eq_refl eq_refl)).
Defined.

(** X5.  A call resolves exactly when the server answered with a success
    status and a body that is a JSON text. *)
Theorem resolves_iff_success (P : Platform) (c : PaperlessClient)
    (m : Method) :
  (exists v, outcome P c m = Fulfilled v)
  <-> (exists resp,
         answer P c m = Some resp
         /\ ok resp = true
         /\ JSON_parse P (bodyText resp) <> None).
Proof.
  unfold outcome. rewrite answer_call, run_call.
  destruct (sent P c m) as [req |].
  - unfold exchange. destruct (server P req) as [resp |].
    + destruct (ok resp) eqn:Hok; cbn [fst].
      * destruct (JSON_parse P (bodyText resp)) as [v |] eqn:Hp; cbn [fst].
        -- split; intros _; [| eauto].
           exists resp. rewrite Hp. repeat split; congruence.
        -- split; [intros [v H]; discriminate |].
           intros [r [Hr [_ Hne]]]. injection Hr as <-. congruence.
      * split; [intros [v H]; discriminate |].
        intros [r [Hr [Hok' _]]]. injection Hr as <-. congruence.
    + cbn. split; [intros [v H]; discriminate |].
      intros [r [Hr _]]. discriminate.
  - cbn. split; [intros [v H]; discriminate |].
    intros [r [Hr _]]. discriminate.
Qed.

(** X6.  The error the client itself throws arises from a failure status and
    from nothing else: a call is rejected with [Error msg] exactly when the
    server answered with a status outside the success range, and [msg] is
    then the failure message of that response. *)
Theorem request_failed_iff_failure_status (P : Platform)
    (c : PaperlessClient) (m : Method) (msg : string) :
  outcome P c m = Rejected (Error msg)
  <-> (exists resp,
         answer P c m = Some resp
         /\ ok resp = false
         /\ msg = "Request failed: " ++ number_toString (status resp)
                    ++ " " ++ statusText resp).
Proof.
  unfold outcome. rewrite answer_call, run_call.
  destruct (sent P c m) as [req |].
  - unfold exchange. destruct (server P req) as [resp |].
    + destruct (ok resp) eqn:Hok; cbn [fst].
      * destruct (JSON_parse P (bodyText resp)); cbn [fst];
          (split; [discriminate |]);
          intros [r [Hr [Hok' _]]]; injection Hr as <-; congruence.
      * split.
        -- intros H. injection H as <-. exists resp. repeat split; assumption.
        -- intros [r [Hr [_ ->]]]. injection Hr as <-. reflexivity.
    + cbn. split; [discriminate |]. intros [r [Hr _]]. discriminate.
  - cbn. split; [discriminate |]. intros [r [Hr _]]. discriminate.
Qed.

(** X7.  The failure message tells the status code and the status text
    apart: two responses give the same message exactly when they agree on
    both. *)
Theorem failure_message_faithful (r1 r2 : Response) :
  failure_message r1 = failure_message r2
  <-> status r1 = status r2 /\ statusText r1 = statusText r2.
Proof.
  unfold failure_message. split.
  - intros H. apply append_cancel_l in H.
    change (" " ++ statusText r1) with (String " " (statusText r1)) in H.
    change (" " ++ statusText r2) with (String " " (statusText r2)) in H.
    apply split_at_first in H;
      try (apply number_toString_chars; reflexivity).
    destruct H as [Hn Ht]. split; [exact (number_toString_inj _ _ Hn) | exact Ht].
  - intros [-> ->]. reflexivity.
Qed.

(** ** Paths *)

Lemma documented_path_tail (k : Kind) (op : Operation) (id : SafeInteger) :
  documented_path k op id = collection_path k ++ path_tail op id.
Proof.
  unfold documented_path, path_tail, item_path.
  destruct (on_item op); [reflexivity |]. destruct k; reflexivity.
Qed.

(** The path of one kind is never a path of another. *)
Lemma documented_path_kind (k1 k2 : Kind) (op1 op2 : Operation)
    (id1 id2 : SafeInteger) :
  documented_path k1 op1 id1 = documented_path k2 op2 id2 -> k1 = k2.
Proof.
  unfold documented_path, item_path.
  destruct (on_item op1), (on_item op2), k1, k2;
    cbn [collection_path append]; intros H;
    try reflexivity; discriminate H.
Qed.

Lemma path_tail_inj (op1 op2 : Operation) (id1 id2 : SafeInteger) :
  path_tail op1 id1 = path_tail op2 id2 ->
  on_item op1 = on_item op2 /\ (on_item op1 = true -> id1 = id2).
Proof.
  unfold path_tail.
  destruct (on_item op1), (on_item op2); intros H.
  - split; [reflexivity |]. intros _.
    change (number_toString id1 ++ String "/" ""
            = number_toString id2 ++ String "/" "") in H.
    apply split_at_first in H;
      try (apply number_toString_chars; reflexivity).
    exact (number_toString_inj _ _ (proj1 H)).
  - elim (number_toString_nonempty id1 "/" H).
  - symmetry in H. elim (number_toString_nonempty id2 "/" H).
  - split; [reflexivity | discriminate].
Qed.

Lemma operation_of_verb (op1 op2 : Operation) :
  verb op1 = verb op2 -> on_item op1 = on_item op2 -> op1 = op2.
Proof.
  destruct op1, op2; cbn; intros Hv Hi;
    try reflexivity; try discriminate Hv; discriminate Hi.
Qed.

Lemma id_of_collection (m : Method) :
  on_item (op_of m) = false -> id_of m = 0%safe.
Proof.
  destruct m; cbn; intros H; try reflexivity; discriminate H.
Qed.

(** An issued request is the request of the pattern, with some body. *)
Lemma issued_request (P : Platform) (c : PaperlessClient) (m : Method)
    (req : Request) :
  In req (requests P c m) ->
  exists payload,
    req = pattern_request c (kind_of m) (op_of m) (id_of m) payload.
Proof.
  destruct (requests_cases P c m) as [payload H]. rewrite H.
  destruct (serialises P m); cbn; [| tauto].
  intros [<- | []]. exists payload. reflexivity.
Qed.

(** X8.  The request line tells the calls apart: the requests that two
    calls of one client issue have the same HTTP method and the same URL
    exactly when the calls are the same operation on the same resource kind
    with the same identifier. *)
Theorem request_line_identifies_call (P : Platform) (c : PaperlessClient)
    (m1 m2 : Method) (r1 r2 : Request) :
  In r1 (requests P c m1) ->
  In r2 (requests P c m2) ->
  request_line r1 = request_line r2
  <-> kind_of m1 = kind_of m2 /\ op_of m1 = op_of m2 /\ id_of m1 = id_of m2.
Proof.
  intros H1 H2.
  destruct (issued_request _ _ _ _ H1) as [p1 ->].
  destruct (issued_request _ _ _ _ H2) as [p2 ->].
  unfold pattern_request, request_line. cbn [method url]. split.
  - intros H. injection H as Hverb Hurl.
    apply append_cancel_l in Hurl.
    pose proof (documented_path_kind _ _ _ _ _ _ Hurl) as Hk.
    rewrite !documented_path_tail, Hk in Hurl.
    apply append_cancel_l in Hurl.
    destruct (path_tail_inj _ _ _ _ Hurl) as [Hitem Hid].
    split; [exact Hk |]. split; [exact (operation_of_verb _ _ Hverb Hitem) |].
    destruct (on_item (op_of m1)) eqn:E1.
    + exact (Hid eq_refl).
    + rewrite (id_of_collection m1 E1).
      symmetry. apply id_of_collection. congruence.
  - intros [-> [-> ->]]. reflexivity.
Qed.

Lemma request_line_identifies_call_witness :
  let get := {| url := "https://paperless.example/api/tags/3/";
                method := "GET";
                headers := [("Authorization", "Token s3cr3t");
                            ("Content-Type", "application/json")];
                body := None |} in
  let delete := {| url := "https://paperless.example/api/tags/3/";
                   method := "DELETE";
                   headers := [("Authorization", "Token s3cr3t");
                               ("Content-Type", "application/json")];
                   body := None |} in
  In get (requests Sample.offline Sample.client (GetTag 3))
  /\ In delete (requests Sample.offline Sample.client (DeleteTag 3))
  /\ (request_line get = request_line delete
      <-> kind_of (GetTag 3) = kind_of (DeleteTag 3)
          /\ op_of (GetTag 3) = op_of (DeleteTag 3)
          /\ id_of (GetTag 3) = id_of (DeleteTag 3)).
Proof.
  cbv zeta. split; [left; reflexivity |]. split; [left; reflexivity |].
  apply (request_line_identifies_call Sample.offline Sample.client
           (GetTag 3) (DeleteTag 3)); left; reflexivity.
Defined.

Lemma append_associative (a b c : string) : (a ++ b) ++ c = a ++ b ++ c.
Proof.
  induction a as [| ch a IH]; cbn; [reflexivity | now rewrite IH].
Qed.

(** X9.  The URL of the request a call issues is the base URL as
    configured, followed by a path that starts with /api/ and ends with a
    slash; the base URL is not trimmed or completed in any way.  (The call
    issues one request; only a create or update whose record cannot be
    serialised issues none.) *)
Theorem url_is_base_then_api_path (P : Platform) (c : PaperlessClient)
    (m : Method) :
  exists req middle,
    url req = baseUrl c ++ "/api/" ++ middle ++ "/"
    /\ requests P c m = if serialises P m then [req] else [].
Proof.
  destruct (requests_cases P c m) as [payload H].
  exists (pattern_request c (kind_of m) (op_of m) (id_of m) payload).
  assert (Hc : forall k, exists name,
               collection_path k = "/api/" ++ name ++ "/").
  { intros k.
    destruct k; cbn;
      [ exists "documents" | exists "tags" | exists "correspondents"
      | exists "document_types" | exists "custom_fields" | exists "users"
      | exists "groups" | exists "share_links" | exists "storage_paths"
      | exists "workflows" ]; reflexivity. }
  destruct (Hc (kind_of m)) as [name Hname].
  destruct (on_item (op_of m)) eqn:E.
  - exists (name ++ "/" ++ number_toString (id_of m)).
    split; [| exact H].
    unfold pattern_request, documented_path, item_path. cbn [url].
    rewrite E, Hname. f_equal. now rewrite !append_associative.
  - exists name. split; [| exact H].
    unfold pattern_request, documented_path. cbn [url].
    now rewrite E, Hname.
Qed.

(** ** Calls in sequence *)

Lemma fetched_app (l1 l2 : list Event) :
  fetched (l1 ++ l2)%list = (fetched l1 ++ fetched l2)%list.
Proof.
  induction l1 as [| [req | resp] l1 IH]; cbn; [reflexivity | | exact IH].
  now rewrite IH.
Qed.

(** A call on any world: the outcome and the new events are those of the
    same call on a fresh instance with the same fields. *)
Lemma call_on_world (P : Platform) (w : World) (m : Method) :
  fst (call m P w) = outcome P (this w) m
  /\ log (snd (call m P w)) = (log w ++ events P (this w) m)%list.
Proof.
  unfold outcome, events. rewrite run_call, call_run.
  destruct (sent P (this w) m) as [req |].
  - rewrite !(proj1 (exchange_fetched _ _ _ _)). cbn [start log app].
    split; [| reflexivity].
    unfold exchange. destruct (server P req) as [resp |]; [| reflexivity].
    destruct (ok resp); [| reflexivity].
    destruct (JSON_parse P (bodyText resp)); reflexivity.
  - cbn. split; [reflexivity | now rewrite app_nil_r].
Qed.

Lemma session_requests_from (calls : list (Platform * Method)) :
  forall w,
    fetched (log (session w calls))
    = (fetched (log w)
       ++ flat_map (fun pm => requests (fst pm) (this w) (snd pm)) calls)%list.
Proof.
  induction calls as [| [P m] calls IH]; intros w; cbn [session flat_map].
  - now rewrite app_nil_r.
  - rewrite IH, call_keeps_this.
    rewrite (proj2 (call_on_world P w m)), fetched_app, <- app_assoc.
    reflexivity.
Qed.

(** X10.  A sequence of calls on one instance issues, in the order of the
    calls, exactly the requests the calls issue on their own, whatever the
    earlier calls ran into: nothing is batched, repeated or held back.
    That is one request for each call whose record, if it sends one, can be
    serialised, and none for the others. *)
Theorem session_issues_one_request_per_call (c : PaperlessClient)
    (calls : list (Platform * Method)) :
  fetched (log (session (start c) calls))
  = flat_map (fun pm => requests (fst pm) c (snd pm)) calls
  /\ length (fetched (log (session (start c) calls)))
     = length (filter (fun pm => serialises (fst pm) (snd pm)) calls).
Proof.
  rewrite (session_requests_from calls (start c)).
  cbn [start log fetched this app].
  split; [reflexivity |].
  induction calls as [| [P m] calls IH]; cbn [flat_map filter fst snd].
  - reflexivity.
  - rewrite length_app, IH.
    destruct (requests_cases P c m) as [payload H]. rewrite H.
    destruct (serialises P m); reflexivity.
Qed.

(** X11.  A call does not depend on the calls made before it: after any
    sequence of calls, the next call settles as it would on the freshly
    constructed instance. *)
Theorem call_ignores_history (c : PaperlessClient)
    (calls : list (Platform * Method)) (P : Platform) (m : Method) :
  fst (call m P (session (start c) calls)) = outcome P c m.
Proof.
  rewrite (proj1 (call_on_world P _ m)).
  now rewrite (session_keeps_this calls (start c)).
Qed.

(** ** The configuration on the wire *)

Lemma length_append_sum (a s : string) :
  String.length (a ++ s) = (String.length a + String.length s)%nat.
Proof.
  induction a as [| ch a IH]; cbn; [reflexivity | now rewrite IH].
Qed.

Lemma append_cancel_r (a b s : string) : a ++ s = b ++ s -> a = b.
Proof.
  revert b. induction a as [| ch a IH]; intros [| ch' b] H.
  - reflexivity.
  - apply (f_equal String.length) in H.
    change (String ch' b ++ s) with (String ch' (b ++ s)) in H.
    cbn in H. rewrite length_append_sum in H. lia.
  - apply (f_equal String.length) in H.
    change (String ch a ++ s) with (String ch (a ++ s)) in H.
    cbn in H. rewrite length_append_sum in H. lia.
  - cbn in H. injection H as -> H. now rewrite (IH b H).
Qed.

(** X12.  The request carries the whole configuration: for the same call on
    the same platform, the requests that two clients issue are the same
    exactly when the clients have the same base URL and the same token. *)
Theorem request_tells_clients_apart (P : Platform) (c1 c2 : PaperlessClient)
    (m : Method) (r1 r2 : Request) :
  In r1 (requests P c1 m) ->
  In r2 (requests P c2 m) ->
  r1 = r2 <-> c1 = c2.
Proof.
  rewrite !requests_call. unfold sent.
  destruct (pattern_body P (op_of m) (record_of m)) as [payload |];
    cbn; [| tauto].
  intros [<- | []] [<- | []]. split; [| now intros ->].
  intros Hreq.
  pose proof (f_equal url Hreq) as Hurl.
  pose proof (f_equal headers Hreq) as Hhead.
  unfold pattern_request, pattern_headers in Hurl, Hhead.
  cbn [url headers] in Hurl, Hhead.
  injection Hhead as Htoken.
  apply append_cancel_r in Hurl.
  destruct c1, c2; cbn in *; congruence.
Qed.

Lemma request_tells_clients_apart_witness :
  let other := constructor "https://paperless.example" "0ther" in
  let sent_by (c : PaperlessClient) :=
    {| url := "https://paperless.example/api/users/";
       method := "GET";
       headers := [("Authorization", "Token " ++ token c);
                   ("Content-Type", "application/json")];
       body := None |} in
  In (sent_by Sample.client) (requests Sample.offline Sample.client GetUsers)
  /\ In (sent_by other) (requests Sample.offline other GetUsers)
  /\ (sent_by Sample.client = sent_by other <-> Sample.client = other).
Proof.
  cbv zeta. split; [left; reflexivity |]. split; [left; reflexivity |].
  apply (request_tells_clients_apart Sample.offline Sample.client
           (constructor "https://paperless.example" "0ther") GetUsers);
    left; reflexivity.
Defined.
